(** * custom_requests: a session wrapper over an HTTP client

    Shallow embedding of [custom_requests/__main__.py] (classes [Response]
    and [Request]) and [custom_requests/lib/exceptions.py] (the logging
    exceptions), followed by the properties of the status-code policy.

    Python objects are modelled by records, exceptions by a result type,
    and the effects of a call (debug logging, logging at exception
    construction, the exchange with the transport, the sleeps of the retry
    decorator) by explicit state passing. *)

From Stdlib Require Import ZArith List String Ascii Bool Lia DecimalString.
Import ListNotations.

Local Open Scope string_scope.
Local Open Scope Z_scope.

(** ** Python values used by the wrapper *)

(** Elements of an allow-list tuple: status codes (ints) and the wildcard
    marker, a string. *)
Inductive PyVal : Type :=
| PyInt (n : Z)
| PyStr (s : string).

(** [==] between such values: an int never equals a str. *)
Definition py_eq (a b : PyVal) : bool :=
  match a, b with
  | PyInt x, PyInt y => x =? y
  | PyStr s, PyStr t => String.eqb s t
  | _, _ => false
  end.

(** [x in t] for a tuple [t]. *)
Definition py_in (x : PyVal) (t : list PyVal) : bool := existsb (py_eq x) t.

(** A [dict] with string keys and values, in insertion order. *)
Definition Dict : Type := list (string * string).

(** [a or b] on containers: an empty tuple or dict is falsy. *)
Definition py_or {A : Type} (a b : list A) : list A :=
  match a with
  | [] => b
  | _ :: _ => a
  end.

(** [a or b] when [a] may also be [None]. *)
Definition py_or_none {A : Type} (a : option (list A)) (b : list A) : list A :=
  match a with
  | None => b
  | Some l => py_or l b
  end.

(** [data or None]. *)
Definition py_or_None {A : Type} (a : list A) : option (list A) :=
  match a with
  | [] => None
  | _ :: _ => Some a
  end.

(** [str(n)] of an int, as an f-string interpolates it. *)
Definition str_of_int (n : Z) : string := NilZero.string_of_int (Z.to_int n).

(** [s.upper()] on ASCII letters. *)
Definition upper_ascii (c : ascii) : ascii :=
  let n := nat_of_ascii c in
  if ((97 <=? n) && (n <=? 122))%nat then ascii_of_nat (n - 32) else c.

Fixpoint upper (s : string) : string :=
  match s with
  | EmptyString => EmptyString
  | String c s' => String (upper_ascii c) (upper s')
  end.

(** ** Exceptions and results *)

Inductive ExcClass : Type :=
| ClsUnexpectedStatusCode
| ClsUnexpectedRequestResult
| ClsRateLimitedError
| ClsHTTPError                 (* requests.exceptions.HTTPError *)
| ClsValueError                (* ValueError and its subclasses *)
| ClsOther (name : string).    (* anything else, e.g. ConnectionError *)

(** An exception instance: its class and the message it was built with. *)
Record exception : Type := MkExc {
  exc_class : ExcClass;
  exc_message : string
}.

Definition isinstance_ValueError (e : exception) : bool :=
  match exc_class e with
  | ClsValueError => true
  | _ => false
  end.

Inductive Result (A : Type) : Type :=
| Ok (a : A)
| Raise (e : exception).
Arguments Ok {A} a.
Arguments Raise {A} e.

(** Parsed structured data. *)
#[local] Unset Elimination Schemes.
Inductive JSON : Type :=
| JNull
| JBool (b : bool)
| JNum (n : Z)
| JStr (s : string)
| JArr (items : list JSON)
| JObj (members : list (string * JSON)).
#[local] Set Elimination Schemes.

(** ** The transport: the [requests] library the session inherits from *)

Module requests.

(** The object a transport verb returns (the source binds it to the
    name [request]).  [json] is the outcome of calling [.json()],
    [__dict__] the rendering of its attribute dictionary. *)
Record Response : Type := MkResponse {
  url : string;
  headers : Dict;
  status_code : Z;
  reason : string;
  text : string;
  json : Result JSON;
  __dict__ : string
}.

(** [Response.raise_for_status()] of the library: an [HTTPError] for a
    4xx or 5xx status, nothing otherwise (the comment at its call in
    [_request]: it raises the included exception for 4xx and 5xx). *)
Definition raise_for_status (r : Response) : Result unit :=
  if (400 <=? status_code r) && (status_code r <? 500) then
    Raise (MkExc ClsHTTPError
             (str_of_int (status_code r) ++ " Client Error: " ++ reason r
              ++ " for url: " ++ url r))
  else if (500 <=? status_code r) && (status_code r <? 600) then
    Raise (MkExc ClsHTTPError
             (str_of_int (status_code r) ++ " Server Error: " ++ reason r
              ++ " for url: " ++ url r))
  else Ok tt.

End requests.

Inductive Method : Type := GET | POST | HEAD | PATCH.

(** The attribute name [getattr(super(), method)] looks up. *)
Definition method_name (m : Method) : string :=
  match m with
  | GET => "get"
  | POST => "post"
  | HEAD => "head"
  | PATCH => "patch"
  end.

(** The keyword arguments of one transport call. *)
Record Call : Type := MkCall {
  call_method : Method;
  call_url : string;
  call_data : option Dict;
  call_headers : Dict;
  call_auth : list string;
  call_allow_redirects : bool;
  call_timeout : list Z
}.

(** A transport answers a call given the calls made before it (most
    recent first): with a response, or by raising (connection errors,
    timeouts). *)
Definition Transport : Type := list Call -> Call -> Result requests.Response.

(** ** Session attributes and the state a call runs in *)

(** The instance attributes [Request.__init__] sets besides the logger. *)
Module Session.
Record t : Type := Make {
  base_url : string;
  request_headers : Dict;
  timeout : list Z;
  allowed_status_codes : list PyVal
}.
End Session.

Inductive Level : Type := DEBUG | ERROR.

(** The logging calls made, by call site.  [SessionDebug], [SessionMaking]
    and [SessionMakingData] are calls of [self.logger.debug], where
    [self.logger] is the logger given to [Request.__init__]; the last two
    keep the interpolated values of the invocation message.
    [RootLog level message] is the call [log(message)] of
    [LogException.__init__], whose [log] is [logging.getLogger().error] or
    [logging.getLogger().debug].  What a call produces (the level filter,
    the handlers, whether [self.logger] hands its records on to the root
    logger) depends on the logging configuration and is not part of the
    trace. *)
Inductive LogRecord : Type :=
| SessionDebug (message : string)
| SessionMaking (m : Method) (url : string) (headers : option Dict)
    (auth : list string)
| SessionMakingData (m : Method) (url : string) (data : option Dict)
    (headers : option Dict)
| RootLog (level : Level) (message : string).

Record State : Type := MkState {
  self : Session.t;
  history : list Call;          (* transport calls made, most recent first *)
  log : list LogRecord;         (* most recent first *)
  slept : nat                   (* waits of the retry decorator *)
}.

(** Computations that may raise and that thread the state. *)
Definition M (A : Type) : Type := State -> Result A * State.

Definition ret {A : Type} (a : A) : M A := fun st => (Ok a, st).

Definition raise {A : Type} (e : exception) : M A := fun st => (Raise e, st).

Definition bind {A B : Type} (c : M A) (k : A -> M B) : M B :=
  fun st =>
    match c st with
    | (Ok a, st') => k a st'
    | (Raise e, st') => (Raise e, st')
    end.

Declare Scope py_scope.
Delimit Scope py_scope with py.
Notation "x <- c ;; k" := (bind c (fun x => k))
  (at level 61, c at next level, right associativity) : py_scope.
Notation "c ;;; k" := (bind c (fun _ => k))
  (at level 61, right associativity) : py_scope.
Local Open Scope py_scope.

Definition get_self : M Session.t := fun st => (Ok (self st), st).

Definition emit (r : LogRecord) : M unit :=
  fun st => (Ok tt, MkState (self st) (history st) (r :: log st) (slept st)).

(** Lift a result computed without effects. *)
Definition lift {A : Type} (r : Result A) : M A := fun st => (r, st).

(** ** custom_requests.lib.exceptions *)

Module exceptions.

(** [LogException.__init__]: log the message through [log], then
    initialise the exception with it. *)
Definition LogException (cls : ExcClass) (message : string) (log : Level)
  : M exception :=
  emit (RootLog log message) ;;;
  ret (MkExc cls message).

Definition UnexpectedStatusCode (url : string) (status_code : Z)
    (reason : string) (request_text : string) : M exception :=
  let message :=
    "Unexpected status code for '" ++ url ++ "'; received status_code: "
    ++ str_of_int status_code ++ ", reason: '" ++ reason ++ "', text: '"
    ++ request_text ++ "'." in
  LogException ClsUnexpectedStatusCode message ERROR.

Definition UnexpectedRequestResult (status_code : Z) (reason : string)
    (request_text : string) : M exception :=
  let message :=
    "Unexpected request result, received: " ++ str_of_int status_code
    ++ " - " ++ reason ++ String "010" EmptyString ++ request_text ++ "." in
  LogException ClsUnexpectedRequestResult message ERROR.

Definition RateLimitedError (url : string) (status_code : Z)
    (reason : string) : M exception :=
  let message :=
    "Experienced rate limiting on '" ++ url ++ "'; received status_code: "
    ++ str_of_int status_code ++ ", reason: '" ++ reason ++ "'." in
  LogException ClsRateLimitedError message DEBUG.

End exceptions.

(** ** class Response *)

Module Response.

Record t : Type := __init__ { request : requests.Response }.

Definition url (self : t) : string := requests.url (request self).
Definition headers (self : t) : Dict := requests.headers (request self).
Definition status_code (self : t) : Z := requests.status_code (request self).
Definition reason (self : t) : string := requests.reason (request self).
Definition text (self : t) : string := requests.text (request self).

Definition json (self : t) : M JSON :=
  match requests.json (request self) with
  | Ok v => ret v
  | Raise e =>
      if isinstance_ValueError e then
        exc <- exceptions.UnexpectedRequestResult (status_code self)
                 (reason self) (requests.__dict__ (request self)) ;;
        raise exc
      else raise e
  end.


End Response.

(** ** The retry decorator *)

Module retry_decorator.

(** The policy of the decorator: how many more times a failed call is
    invoked again, and which exceptions it retries. *)
Record Policy : Type := MkPolicy {
  retries : nat;
  retry_on : exception -> bool
}.

(** The wait between two attempts; with [jitter=True] its length is
    random, so only its occurrence is recorded. *)
Definition sleep : M unit :=
  fun st => (Ok tt, MkState (self st) (history st) (log st) (S (slept st))).

Fixpoint attempts {A : Type} (retry_on : exception -> bool) (n : nat)
    (f : M A) : M A :=
  fun st =>
    match f st with
    | (Ok a, st') => (Ok a, st')
    | (Raise e, st') =>
        match n with
        | O => (Raise e, st')
        | S k =>
            if retry_on e then (sleep ;;; attempts retry_on k f) st'
            else (Raise e, st')
        end
    end.

(** Modelled from the spec: package [retry_decorator] is not part of the
    repository.  [Retry(jitter=True)] wraps a call so that a failure
    re-invokes it after a randomized delay, up to a bound owned by the
    decorator; the error of the last attempt propagates to the caller. *)
Definition Retry {A : Type} (p : Policy) (f : M A) : M A :=
  attempts (retry_on p) (retries p) f.

End retry_decorator.

(** ** class Request *)

Module Request.

(** [Request.__init__]: the attributes of a fresh session.  The [logger]
    argument is stored as [self.logger] and never reassigned; it is
    modelled by the calls made on it, the [Session...] entries of the
    log. *)
Definition __init__ : Session.t :=
  {| Session.base_url := EmptyString;
     Session.request_headers := [];
     Session.timeout := [10; 15];
     Session.allowed_status_codes := [PyInt 200] |}.

(** The call [getattr(super(), method)(...)]: ask the transport, and
    record the call. *)
Definition super (transport : Transport) (c : Call) : M requests.Response :=
  fun st =>
    (transport (history st) c,
     MkState (self st) (c :: history st) (log st) (slept st)).

(** The condition of the second [if] of [_request]: the status is not in
    [status_codes or self.allowed_status_codes], and ["*"] is not in
    [status_codes]. *)
Definition not_allowed (self : Session.t) (status_codes : list PyVal)
    (request : requests.Response) : bool :=
  negb (py_in (PyInt (requests.status_code request))
          (py_or status_codes (Session.allowed_status_codes self)))
  && negb (py_in (PyStr "*") status_codes).

Definition _request (transport : Transport) (method : Method) (url : string)
    (data : Dict) (headers : Dict) (auth : list string)
    (allow_redirects : bool) (timeout : list Z) (status_codes : list PyVal)
  : M requests.Response :=
  self <- get_self ;;
  request <- super transport
    {| call_method := method;
       call_url := url;
       call_data := py_or_None data;
       call_headers := py_or headers (Session.request_headers self);
       call_auth := auth;
       call_allow_redirects := allow_redirects;
       call_timeout := py_or timeout (Session.timeout self) |} ;;
  emit (SessionDebug
          ("HTTP " ++ upper (method_name method) ++ " ("
           ++ str_of_int (requests.status_code request) ++ ") request '"
           ++ requests.__dict__ request ++ "'.")) ;;;
  (if requests.status_code request =? 429 then
     exc <- exceptions.RateLimitedError (requests.url request)
              (requests.status_code request) (requests.reason request) ;;
     raise exc
   else ret tt) ;;;
  (if not_allowed self status_codes request then
     if negb (requests.status_code request =? 200) then
       (if negb (requests.status_code request =? 404) then
          lift (requests.raise_for_status request)
        else ret tt) ;;;
       exc <- exceptions.UnexpectedStatusCode (requests.url request)
                (requests.status_code request) (requests.reason request)
                (requests.text request) ;;
       raise exc
     else ret tt
   else ret tt) ;;;
  emit (SessionDebug
          ("Acceptable " ++ upper (method_name method) ++ " status code '"
           ++ str_of_int (requests.status_code request) ++ "' for '"
           ++ url ++ "'.")) ;;;
  ret request.

Section Verbs.

Variable transport : Transport.
Variable policy : retry_decorator.Policy.

(** The functions as written, before [@Retry(jitter=True)] wraps
    them. *)
Definition get_body (url : string) (headers : option Dict)
    (auth : list string) (allow_redirects : bool) (timeout : list Z)
    (status_codes : list PyVal) : M Response.t :=
  emit (SessionMaking GET url headers auth) ;;;
  r <- _request transport GET url [] (py_or_none headers []) auth
         allow_redirects timeout status_codes ;;
  ret (Response.__init__ r).

Definition post_body (url : string) (data : option Dict)
    (headers : option Dict) (auth : list string) (allow_redirects : bool)
    (timeout : list Z) (status_codes : list PyVal) : M Response.t :=
  emit (SessionMakingData POST url data headers) ;;;
  r <- _request transport POST url (py_or_none data [])
         (py_or_none headers []) auth allow_redirects timeout
         status_codes ;;
  ret (Response.__init__ r).

Definition head_body (url : string) (headers : option Dict)
    (auth : list string) (allow_redirects : bool) (timeout : list Z)
    (status_codes : list PyVal) : M Response.t :=
  emit (SessionMaking HEAD url headers auth) ;;;
  r <- _request transport HEAD url [] (py_or_none headers []) auth
         allow_redirects timeout status_codes ;;
  ret (Response.__init__ r).

Definition patch_body (url : string) (data : option Dict)
    (headers : option Dict) (auth : list string) (allow_redirects : bool)
    (timeout : list Z) (status_codes : list PyVal) : M Response.t :=
  emit (SessionMaking PATCH url headers auth) ;;;
  r <- _request transport PATCH url (py_or_none data [])
         (py_or_none headers []) auth allow_redirects timeout
         status_codes ;;
  ret (Response.__init__ r).

(** The decorated methods. *)
Definition get url headers auth allow_redirects timeout status_codes :=
  retry_decorator.Retry policy
    (get_body url headers auth allow_redirects timeout status_codes).

Definition post url data headers auth allow_redirects timeout
    status_codes :=
  retry_decorator.Retry policy
    (post_body url data headers auth allow_redirects timeout
       status_codes).

Definition head url headers auth allow_redirects timeout status_codes :=
  retry_decorator.Retry policy
    (head_body url headers auth allow_redirects timeout status_codes).

Definition patch url data headers auth allow_redirects timeout
    status_codes :=
  retry_decorator.Retry policy
    (patch_body url data headers auth allow_redirects timeout
       status_codes).

End Verbs.

End Request.

(** ** Verb calls *)

(** A call of one of the four public methods with its arguments. *)
Inductive VerbCall : Type :=
| Get (url : string) (headers : option Dict) (auth : list string)
    (allow_redirects : bool) (timeout : list Z) (status_codes : list PyVal)
| Post (url : string) (data headers : option Dict) (auth : list string)
    (allow_redirects : bool) (timeout : list Z) (status_codes : list PyVal)
| Head (url : string) (headers : option Dict) (auth : list string)
    (allow_redirects : bool) (timeout : list Z) (status_codes : list PyVal)
| Patch (url : string) (data headers : option Dict) (auth : list string)
    (allow_redirects : bool) (timeout : list Z) (status_codes : list PyVal).

(** The calls with Python's default arguments. *)
Definition get_default (url : string) : VerbCall := Get url None [] true [] [].
Definition post_default (url : string) : VerbCall :=
  Post url None None [] true [] [].
Definition head_default (url : string) : VerbCall :=
  Head url None [] false [] [].
Definition patch_default (url : string) : VerbCall :=
  Patch url None None [] true [] [].

Definition invoke (transport : Transport) (policy : retry_decorator.Policy)
    (c : VerbCall) : M Response.t :=
  match c with
  | Get u h a r t s => Request.get transport policy u h a r t s
  | Post u d h a r t s => Request.post transport policy u d h a r t s
  | Head u h a r t s => Request.head transport policy u h a r t s
  | Patch u d h a r t s => Request.patch transport policy u d h a r t s
  end.

(** One attempt of the call: the method before decoration. *)
Definition invoke_body (transport : Transport) (c : VerbCall) : M Response.t :=
  match c with
  | Get u h a r t s => Request.get_body transport u h a r t s
  | Post u d h a r t s => Request.post_body transport u d h a r t s
  | Head u h a r t s => Request.head_body transport u h a r t s
  | Patch u d h a r t s => Request.patch_body transport u d h a r t s
  end.

(** The [status_codes] argument of the call. *)
Definition status_codes_of (c : VerbCall) : list PyVal :=
  match c with
  | Get _ _ _ _ _ s | Post _ _ _ _ _ _ s
  | Head _ _ _ _ _ s | Patch _ _ _ _ _ _ s => s
  end.

(** The allow-list the membership test of [_request] consults. *)
Definition effective_allow_list (self : Session.t) (c : VerbCall)
  : list PyVal :=
  py_or (status_codes_of c) (Session.allowed_status_codes self).

(** The transport call an attempt of [c] makes on session [self]. *)
Definition sent (self : Session.t) (c : VerbCall) : Call :=
  let mk m u d h a r t :=
    {| call_method := m;
       call_url := u;
       call_data := py_or_None (py_or_none d []);
       call_headers := py_or (py_or_none h []) (Session.request_headers self);
       call_auth := a;
       call_allow_redirects := r;
       call_timeout := py_or t (Session.timeout self) |} in
  match c with
  | Get u h a r t _ => mk GET u None h a r t
  | Post u d h a r t _ => mk POST u d h a r t
  | Head u h a r t _ => mk HEAD u None h a r t
  | Patch u d h a r t _ => mk PATCH u d h a r t
  end.

(** The transport answers call [c] with a response satisfying [P],
    whatever calls were made before. *)
Definition always_responds (transport : Transport) (c : Call)
    (P : requests.Response -> Prop) : Prop :=
  forall h, exists r, transport h c = Ok r /\ P r.

(** The messages the three exception classes format. *)
Definition rate_limited_message (r : requests.Response) : string :=
  "Experienced rate limiting on '" ++ requests.url r
  ++ "'; received status_code: " ++ str_of_int (requests.status_code r)
  ++ ", reason: '" ++ requests.reason r ++ "'.".

Definition unexpected_status_message (r : requests.Response) : string :=
  "Unexpected status code for '" ++ requests.url r
  ++ "'; received status_code: " ++ str_of_int (requests.status_code r)
  ++ ", reason: '" ++ requests.reason r ++ "', text: '" ++ requests.text r
  ++ "'.".

(** What one attempt yields for a transport response [r]: a pure reading
    of the branches of [_request], proved equal to the code below. *)
Definition verdict (self : Session.t) (status_codes : list PyVal)
    (r : requests.Response) : Result Response.t :=
  if requests.status_code r =? 429 then
    Raise (MkExc ClsRateLimitedError (rate_limited_message r))
  else if Request.not_allowed self status_codes r
          && negb (requests.status_code r =? 200) then
    if requests.status_code r =? 404 then
      Raise (MkExc ClsUnexpectedStatusCode (unexpected_status_message r))
    else
      match requests.raise_for_status r with
      | Raise e => Raise e
      | Ok _ =>
          Raise (MkExc ClsUnexpectedStatusCode (unexpected_status_message r))
      end
  else Ok (Response.__init__ r).

(** The transport call [_request] makes on session [self]. *)
Definition request_call (self : Session.t) (method : Method) (url : string)
    (data headers : Dict) (auth : list string) (allow_redirects : bool)
    (timeout : list Z) : Call :=
  {| call_method := method;
     call_url := url;
     call_data := py_or_None data;
     call_headers := py_or headers (Session.request_headers self);
     call_auth := auth;
     call_allow_redirects := allow_redirects;
     call_timeout := py_or timeout (Session.timeout self) |}.

(** ** Sample transports and states *)

Definition sample_response (status : Z) : requests.Response :=
  {| requests.url := "https://api.example/x";
     requests.headers := [("Content-Type", "application/json")];
     requests.status_code := status;
     requests.reason := "Reason";
     requests.text := "{a:1}";
     requests.json := Ok (JObj [("a", JNum 1)]);
     requests.__dict__ := "{status_code: ...}" |}.

(** A response whose body does not parse: [.json()] raises a
    [ValueError]. *)
Definition unparseable_response (status : Z) : requests.Response :=
  {| requests.url := "https://api.example/x";
     requests.headers := [];
     requests.status_code := status;
     requests.reason := "Reason";
     requests.text := "<html>";
     requests.json :=
       Raise (MkExc ClsValueError "Expecting value: line 1 column 1 (char 0)");
     requests.__dict__ := "{status_code: ...}" |}.

(** A session whose allow-list attribute was reassigned to [(200, "*")]. *)
Definition wildcard_session_state : State :=
  {| self :=
       {| Session.base_url := EmptyString;
          Session.request_headers := [];
          Session.timeout := [10; 15];
          Session.allowed_status_codes := [PyInt 200; PyStr "*"] |};
     history := [];
     log := [];
     slept := 0 |}.

(** A session whose allow-list attribute was reassigned to [("*",)]. *)
Definition star_session_state : State :=
  {| self :=
       {| Session.base_url := EmptyString;
          Session.request_headers := [];
          Session.timeout := [10; 15];
          Session.allowed_status_codes := [PyStr "*"] |};
     history := [];
     log := [];
     slept := 0 |}.

(** A transport that answers every call with the same status. *)
Definition constant_transport (status : Z) : Transport :=
  fun _ _ => Ok (sample_response status).

(** A transport that answers by the number of calls made before. *)
Definition scripted_transport (statuses : list Z) (last : Z) : Transport :=
  fun h _ => Ok (sample_response (nth (List.length h) statuses last)).

(** A fresh session before any call. *)
Definition fresh_state : State :=
  {| self := Request.__init__; history := []; log := []; slept := 0 |}.

(** A decorator that tries again twice, whatever the exception. *)
Definition sample_policy : retry_decorator.Policy :=
  {| retry_decorator.retries := 2; retry_decorator.retry_on := fun _ => true |}.

(** ** Views of a call, of the session and of the log *)

(** The arguments of a verb call.  [get] and [head] take no [data]. *)
Definition method_of (c : VerbCall) : Method :=
  match c with
  | Get _ _ _ _ _ _ => GET
  | Post _ _ _ _ _ _ _ => POST
  | Head _ _ _ _ _ _ => HEAD
  | Patch _ _ _ _ _ _ _ => PATCH
  end.

Definition url_of (c : VerbCall) : string :=
  match c with
  | Get u _ _ _ _ _ | Post u _ _ _ _ _ _
  | Head u _ _ _ _ _ | Patch u _ _ _ _ _ _ => u
  end.

Definition data_of (c : VerbCall) : option Dict :=
  match c with
  | Post _ d _ _ _ _ _ | Patch _ d _ _ _ _ _ => d
  | Get _ _ _ _ _ _ | Head _ _ _ _ _ _ => None
  end.

Definition headers_of (c : VerbCall) : option Dict :=
  match c with
  | Get _ h _ _ _ _ | Post _ _ h _ _ _ _
  | Head _ h _ _ _ _ | Patch _ _ h _ _ _ _ => h
  end.

Definition auth_of (c : VerbCall) : list string :=
  match c with
  | Get _ _ a _ _ _ | Post _ _ _ a _ _ _
  | Head _ _ a _ _ _ | Patch _ _ _ a _ _ _ => a
  end.

Definition allow_redirects_of (c : VerbCall) : bool :=
  match c with
  | Get _ _ _ r _ _ | Post _ _ _ _ r _ _
  | Head _ _ _ r _ _ | Patch _ _ _ _ r _ _ => r
  end.

Definition timeout_of (c : VerbCall) : list Z :=
  match c with
  | Get _ _ _ _ t _ | Post _ _ _ _ _ t _
  | Head _ _ _ _ t _ | Patch _ _ _ _ _ t _ => t
  end.

(** The same call with another [status_codes] argument. *)
Definition with_status_codes (c : VerbCall) (s : list PyVal) : VerbCall :=
  match c with
  | Get u h a r t _ => Get u h a r t s
  | Post u d h a r t _ => Post u d h a r t s
  | Head u h a r t _ => Head u h a r t s
  | Patch u d h a r t _ => Patch u d h a r t s
  end.

(** The assignments [session.allowed_status_codes = l] and
    [session.base_url = b] a caller may make between calls. *)
Definition set_allowed_status_codes (l : list PyVal) (st : State) : State :=
  {| self :=
       {| Session.base_url := Session.base_url (self st);
          Session.request_headers := Session.request_headers (self st);
          Session.timeout := Session.timeout (self st);
          Session.allowed_status_codes := l |};
     history := history st;
     log := log st;
     slept := slept st |}.

Definition set_base_url (b : string) (st : State) : State :=
  {| self :=
       {| Session.base_url := b;
          Session.request_headers := Session.request_headers (self st);
          Session.timeout := Session.timeout (self st);
          Session.allowed_status_codes :=
            Session.allowed_status_codes (self st) |};
     history := history st;
     log := log st;
     slept := slept st |}.

(** The calls [log(message)] made by exception constructors, most recent
    first: the method of the root logger called, and the message. *)
Definition exception_log_calls (l : list LogRecord)
  : list (Level * string) :=
  flat_map (fun r =>
              match r with
              | RootLog level message => [(level, message)]
              | _ => []
              end) l.

(** The number of calls of [self.logger.debug]. *)
Definition logger_debug_calls (l : list LogRecord) : nat :=
  List.length (filter (fun r =>
                         match r with
                         | RootLog _ _ => false
                         | _ => true
                         end) l).

(** A transport that cannot connect. *)
Definition failing_transport : Transport :=
  fun _ _ => Raise (MkExc (ClsOther "ConnectionError") "Connection refused").

(** * Properties *)

(** ** The retry loop *)

Section RetryLoop.

Context {A : Type}.
Variable retry_on : exception -> bool.
Variable f : M A.

Lemma attempts_first_ok (n : nat) (st st' : State) (a : A) :
  f st = (Ok a, st') ->
  retry_decorator.attempts retry_on n f st = (Ok a, st').
Proof.
  intros Hf. destruct n; simpl; rewrite Hf; reflexivity.
Qed.

Hypothesis f_frame : forall s, self (snd (f s)) = self s.

(** The loop ends with the outcome of its last attempt, made on the
    unchanged session. *)
Lemma attempts_last (n : nat) :
  forall st, exists s0,
    self s0 = self st /\ retry_decorator.attempts retry_on n f st = f s0.
Proof.
  induction n as [|k IH]; intros st; simpl.
  - exists st. split; [reflexivity|].
    destruct (f st) as [[a|e] st']; reflexivity.
  - destruct (f st) as [[a|e] st'] eqn:Hf.
    + exists st. rewrite Hf. auto.
    + destruct (retry_on e).
      * unfold bind, retry_decorator.sleep.
        match goal with
        | |- context [retry_decorator.attempts _ _ _ ?s] =>
            destruct (IH s) as [s0 [Hs0 Heq]]
        end.
        exists s0. split; [|exact Heq].
        rewrite Hs0. simpl.
        specialize (f_frame st). rewrite Hf in f_frame. exact f_frame.
      * exists st. rewrite Hf. auto.
Qed.

Lemma attempts_frame (n : nat) (st : State) :
  self (snd (retry_decorator.attempts retry_on n f st)) = self st.
Proof.
  destruct (attempts_last n st) as [s0 [Hs0 Heq]].
  rewrite Heq, f_frame. exact Hs0.
Qed.

End RetryLoop.

(** ** One attempt *)

Ltac run_monad :=
  unfold bind, ret, raise, lift, emit, get_self, Request.super,
    exceptions.RateLimitedError, exceptions.UnexpectedStatusCode,
    exceptions.UnexpectedRequestResult, exceptions.LogException; simpl.

Lemma _request_result transport m u d h a r t codes st :
  fst (Request._request transport m u d h a r t codes st) =
  match transport (history st) (request_call (self st) m u d h a r t) with
  | Raise e => Raise e
  | Ok resp =>
      match verdict (self st) codes resp with
      | Ok _ => Ok resp
      | Raise e => Raise e
      end
  end.
Proof.
  unfold Request._request, request_call, verdict. run_monad.
  destruct (transport _ _) as [resp|e]; simpl; [|reflexivity].
  destruct (requests.status_code resp =? 429); simpl; [reflexivity|].
  destruct (Request.not_allowed (self st) codes resp); simpl; [|reflexivity].
  destruct (requests.status_code resp =? 200); simpl; [reflexivity|].
  destruct (requests.status_code resp =? 404); simpl; [reflexivity|].
  destruct (requests.raise_for_status resp); reflexivity.
Qed.

Lemma _request_frame transport m u d h a r t codes st :
  self (snd (Request._request transport m u d h a r t codes st)) = self st.
Proof.
  unfold Request._request. run_monad.
  destruct (transport _ _) as [resp|e]; simpl; [|reflexivity].
  destruct (requests.status_code resp =? 429); simpl; [reflexivity|].
  destruct (Request.not_allowed (self st) codes resp); simpl; [|reflexivity].
  destruct (requests.status_code resp =? 200); simpl; [reflexivity|].
  destruct (requests.status_code resp =? 404); simpl; [reflexivity|].
  destruct (requests.raise_for_status resp); reflexivity.
Qed.

(** A verb wraps what [_request] returns and passes its exceptions on. *)
Lemma wrap_result (c : M requests.Response) (st : State) :
  fst ((r <- c ;; ret (Response.__init__ r)) st) =
  match fst (c st) with
  | Ok r => Ok (Response.__init__ r)
  | Raise e => Raise e
  end.
Proof.
  unfold bind, ret. destruct (c st) as [[r|e] st']; reflexivity.
Qed.

Lemma wrap_frame (c : M requests.Response) (st : State) :
  self (snd ((r <- c ;; ret (Response.__init__ r)) st)) = self (snd (c st)).
Proof.
  unfold bind, ret. destruct (c st) as [[r|e] st']; reflexivity.
Qed.

Lemma body_result transport c st :
  fst (invoke_body transport c st) =
  match transport (history st) (sent (self st) c) with
  | Raise e => Raise e
  | Ok r => verdict (self st) (status_codes_of c) r
  end.
Proof.
  destruct c; simpl;
    unfold Request.get_body, Request.post_body, Request.head_body,
      Request.patch_body;
    unfold bind at 1; unfold emit at 1; cbv beta iota;
    rewrite wrap_result, _request_result; simpl; unfold request_call;
    simpl;
    match goal with
    | |- context [transport ?h ?k] => destruct (transport h k) as [resp|e]
    end; try reflexivity;
    unfold verdict;
    destruct (requests.status_code resp =? 429); simpl; try reflexivity;
    match goal with
    | |- context [Request.not_allowed ?s ?l ?x] =>
        destruct (Request.not_allowed s l x)
    end; simpl; try reflexivity;
    destruct (requests.status_code resp =? 200); simpl; try reflexivity;
    destruct (requests.status_code resp =? 404); simpl; try reflexivity;
    destruct (requests.raise_for_status resp); reflexivity.
Qed.

Lemma body_frame transport c st :
  self (snd (invoke_body transport c st)) = self st.
Proof.
  destruct c; simpl;
    unfold Request.get_body, Request.post_body, Request.head_body,
      Request.patch_body;
    unfold bind at 1; unfold emit at 1; cbv beta iota;
    rewrite wrap_frame, _request_frame; reflexivity.
Qed.

Lemma invoke_unfold transport policy c :
  invoke transport policy c =
  retry_decorator.attempts (retry_decorator.retry_on policy)
    (retry_decorator.retries policy) (invoke_body transport c).
Proof.
  destruct c; reflexivity.
Qed.

(** ** The decorated call *)

Lemma invoke_last transport policy c st :
  exists s0,
    self s0 = self st /\
    invoke transport policy c st = invoke_body transport c s0.
Proof.
  rewrite invoke_unfold. apply attempts_last. apply body_frame.
Qed.

Lemma invoke_first_ok transport policy c st r :
  transport (history st) (sent (self st) c) = Ok r ->
  verdict (self st) (status_codes_of c) r = Ok (Response.__init__ r) ->
  exists st', invoke transport policy c st = (Ok (Response.__init__ r), st').
Proof.
  intros Ht Hv. rewrite invoke_unfold.
  pose proof (body_result transport c st) as Hb.
  rewrite Ht, Hv in Hb.
  destruct (invoke_body transport c st) as [res st'] eqn:Hbody.
  simpl in Hb. subst res.
  exists st'. apply attempts_first_ok. exact Hbody.
Qed.

(** When every answer of the transport satisfies [P], the call ends with
    the verdict on one such answer. *)
Lemma invoke_always transport policy c st (P : requests.Response -> Prop) :
  always_responds transport (sent (self st) c) P ->
  exists r h,
    transport h (sent (self st) c) = Ok r /\ P r /\
    fst (invoke transport policy c st)
    = verdict (self st) (status_codes_of c) r.
Proof.
  intros Hall.
  destruct (invoke_last transport policy c st) as [s0 [Hs0 Heq]].
  destruct (Hall (history s0)) as [r [Hr HP]].
  exists r, (history s0). split; [exact Hr|]. split; [exact HP|].
  rewrite Heq, body_result, Hs0, Hr. reflexivity.
Qed.

Lemma not_allowed_true self codes r :
  py_in (PyInt (requests.status_code r))
    (py_or codes (Session.allowed_status_codes self)) = false ->
  py_in (PyStr "*") codes = false ->
  Request.not_allowed self codes r = true.
Proof.
  intros H1 H2. unfold Request.not_allowed. rewrite H1, H2. reflexivity.
Qed.

Lemma raise_for_status_4xx_5xx r :
  400 <= requests.status_code r < 600 ->
  exists e, requests.raise_for_status r = Raise e /\ exc_class e = ClsHTTPError.
Proof.
  intros H. unfold requests.raise_for_status.
  destruct ((400 <=? requests.status_code r) && (requests.status_code r <? 500))
    eqn:E4; [eexists; split; reflexivity|].
  destruct ((500 <=? requests.status_code r) && (requests.status_code r <? 600))
    eqn:E5; [eexists; split; reflexivity|].
  exfalso.
  apply andb_false_iff in E4. apply andb_false_iff in E5.
  rewrite Z.leb_gt, Z.ltb_ge in E4. rewrite Z.leb_gt, Z.ltb_ge in E5. lia.
Qed.

Lemma raise_for_status_other r :
  ~ 400 <= requests.status_code r < 600 ->
  requests.raise_for_status r = Ok tt.
Proof.
  intros H. unfold requests.raise_for_status.
  destruct ((400 <=? requests.status_code r) && (requests.status_code r <? 500))
    eqn:E4.
  - apply andb_true_iff in E4. rewrite Z.leb_le, Z.ltb_lt in E4. lia.
  - destruct ((500 <=? requests.status_code r)
              && (requests.status_code r <? 600)) eqn:E5; [|reflexivity].
    apply andb_true_iff in E5. rewrite Z.leb_le, Z.ltb_lt in E5. lia.
Qed.

(** ** Status-code policy of the verbs *)




(** C2 (as amended).  A verb call returns a [Response] only around a raw
    response whose status is not 429 and is either in the effective
    allow-list, or covered by a wildcard in the caller's [status_codes],
    or 200.  For every other status, 404 included, the attempt raises and
    no [Response] is built. *)
Theorem response_only_for_accepted_status transport policy c st resp st' :
  invoke transport policy c st = (Ok resp, st') ->
  Response.status_code resp <> 429 /\
  (py_in (PyInt (Response.status_code resp))
     (effective_allow_list (self st) c) = true \/
   py_in (PyStr "*") (status_codes_of c) = true \/
   Response.status_code resp = 200).
Proof.
  intros Hinv.
  destruct (invoke_last transport policy c st) as [s0 [Hs0 Heq]].
  rewrite Heq in Hinv.
  pose proof (body_result transport c s0) as Hb.
  rewrite Hinv in Hb. simpl in Hb. rewrite Hs0 in Hb.
  destruct (transport (history s0) (sent (self st) c)) as [r|e];
    [|discriminate Hb].
  unfold verdict in Hb.
  destruct (requests.status_code r =? 429) eqn:E429; [discriminate Hb|].
  apply Z.eqb_neq in E429.
  destruct (Request.not_allowed (self st) (status_codes_of c) r
            && negb (requests.status_code r =? 200)) eqn:Eguard.
  - destruct (requests.status_code r =? 404); [discriminate Hb|].
    destruct (requests.raise_for_status r); discriminate Hb.
  - injection Hb as Hresp. subst resp.
    unfold Response.status_code. simpl. split; [exact E429|].
    apply andb_false_iff in Eguard. destruct Eguard as [Hna|H200].
    + unfold Request.not_allowed in Hna. apply andb_false_iff in Hna.
      destruct Hna as [Hin|Hstar].
      * left. apply negb_false_iff in Hin. exact Hin.
      * right; left. apply negb_false_iff in Hstar. exact Hstar.
    + right; right. apply negb_false_iff in H200.
      apply Z.eqb_eq in H200. exact H200.
Qed.

Lemma response_only_for_accepted_status_witness :
  Response.status_code (Response.__init__ (sample_response 201)) <> 429 /\
  (py_in (PyInt (Response.status_code (Response.__init__ (sample_response 201))))
     (effective_allow_list (self fresh_state)
        (Get "https://api.example/x" None [] true [] [PyInt 200; PyInt 201]))
   = true \/
   py_in (PyStr "*")
     (status_codes_of
        (Get "https://api.example/x" None [] true [] [PyInt 200; PyInt 201]))
   = true \/
   Response.status_code (Response.__init__ (sample_response 201)) = 200).
Proof.
  apply (response_only_for_accepted_status (constant_transport 201)
           sample_policy
           (Get "https://api.example/x" None [] true [] [PyInt 200; PyInt 201])
           fresh_state (Response.__init__ (sample_response 201))
           (snd (invoke (constant_transport 201) sample_policy
                   (Get "https://api.example/x" None [] true []
                      [PyInt 200; PyInt 201]) fresh_state))).
  vm_compute. reflexivity.
Defined.

(** C2, counterexample.  With [status_codes=(201,)] a 200 answer is
    outside the effective allow-list and is not 404, yet the call returns
    a [Response] around it; and a 404 answer under the default allow-list
    is not let through: the call raises [UnexpectedStatusCode]. *)
Lemma response_built_outside_allow_list :
  py_in (PyInt 200)
    (effective_allow_list (self fresh_state)
       (Get "https://api.example/x" None [] true [] [PyInt 201])) = false /\
  fst (invoke (constant_transport 200) sample_policy
         (Get "https://api.example/x" None [] true [] [PyInt 201])
         fresh_state)
  = Ok (Response.__init__ (sample_response 200)) /\
  fst (invoke (constant_transport 404) sample_policy
         (get_default "https://api.example/x") fresh_state)
  = Raise (MkExc ClsUnexpectedStatusCode
             "Unexpected status code for 'https://api.example/x'; received status_code: 404, reason: 'Reason', text: '{a:1}'.").
Proof.
  repeat split; vm_compute; reflexivity.
Qed.




(** C4 (as amended).  When the transport answers a verb call with a status
    that is a member of the effective allow-list (the caller's
    [status_codes] if non-empty, else the session's) and is not 429, the
    call returns the answer wrapped in a [Response]. *)
Theorem allowed_status_returned transport policy c st r :
  transport (history st) (sent (self st) c) = Ok r ->
  py_in (PyInt (requests.status_code r)) (effective_allow_list (self st) c)
  = true ->
  requests.status_code r <> 429 ->
  exists st', invoke transport policy c st = (Ok (Response.__init__ r), st').
Proof.
  intros Hr Hin H429.
  apply invoke_first_ok; [exact Hr|].
  unfold verdict, Request.not_allowed.
  apply Z.eqb_neq in H429. rewrite H429.
  unfold effective_allow_list in Hin. rewrite Hin. reflexivity.
Qed.

Lemma allowed_status_returned_witness :
  exists st',
    invoke (constant_transport 201) sample_policy
      (Post "https://api.example/x" (Some [("a", "1")]) None [] true []
         [PyInt 200; PyInt 201]) fresh_state
    = (Ok (Response.__init__ (sample_response 201)), st').
Proof.
  apply (allowed_status_returned (constant_transport 201) sample_policy
           (Post "https://api.example/x" (Some [("a", "1")]) None [] true []
              [PyInt 200; PyInt 201]) fresh_state (sample_response 201)).
  - reflexivity.
  - reflexivity.
  - simpl. discriminate.
Defined.

(** C4, counterexample.  With [status_codes=(429,)] a 429 answer is a
    member of the effective allow-list, and the call raises
    [RateLimitedError] instead of returning it. *)
Lemma allowed_429_still_raises :
  constant_transport 429 (history fresh_state)
    (sent (self fresh_state)
       (Get "https://api.example/x" None [] true [] [PyInt 429]))
  = Ok (sample_response 429) /\
  py_in (PyInt (requests.status_code (sample_response 429)))
    (effective_allow_list (self fresh_state)
       (Get "https://api.example/x" None [] true [] [PyInt 429])) = true /\
  fst (invoke (constant_transport 429) sample_policy
         (Get "https://api.example/x" None [] true [] [PyInt 429])
         fresh_state)
  = Raise (MkExc ClsRateLimitedError
             "Experienced rate limiting on 'https://api.example/x'; received status_code: 429, reason: 'Reason'.").
Proof.
  repeat split; vm_compute; reflexivity.
Qed.

(** C5 (as amended).  A verb call whose answer has status 200 returns it
    wrapped in a [Response], whatever the allow-lists.  The disallowed
    branch of [_request] is not entered with status 200 when 200 is in the
    effective allow-list, which is the case for a call without
    [status_codes] on a session whose allow-list is the initial [(200,)]. *)
Theorem status_200_accepted transport policy c st r :
  transport (history st) (sent (self st) c) = Ok r ->
  requests.status_code r = 200 ->
  (exists st', invoke transport policy c st = (Ok (Response.__init__ r), st'))
  /\ (py_in (PyInt 200) (effective_allow_list (self st) c) = true ->
      Request.not_allowed (self st) (status_codes_of c) r = false)
  /\ (status_codes_of c = [] ->
      Session.allowed_status_codes (self st)
      = Session.allowed_status_codes Request.__init__ ->
      Request.not_allowed (self st) (status_codes_of c) r = false).
Proof.
  intros Hr H200. split; [|split].
  - apply invoke_first_ok; [exact Hr|].
    unfold verdict. rewrite H200. simpl.
    rewrite andb_false_r. reflexivity.
  - intros Hin. unfold Request.not_allowed.
    unfold effective_allow_list in Hin. rewrite H200, Hin. reflexivity.
  - intros Hnil Hdef. unfold Request.not_allowed.
    rewrite Hnil, Hdef, H200. reflexivity.
Qed.

Lemma status_200_accepted_witness :
  (exists st',
     invoke (constant_transport 200) sample_policy
       (Get "https://api.example/x" None [] true [] [PyInt 201]) fresh_state
     = (Ok (Response.__init__ (sample_response 200)), st'))
  /\ (py_in (PyInt 200)
        (effective_allow_list (self fresh_state)
           (Get "https://api.example/x" None [] true [] [PyInt 201])) = true ->
      Request.not_allowed (self fresh_state)
        (status_codes_of
           (Get "https://api.example/x" None [] true [] [PyInt 201]))
        (sample_response 200) = false)
  /\ (status_codes_of
        (Get "https://api.example/x" None [] true [] [PyInt 201]) = [] ->
      Session.allowed_status_codes (self fresh_state)
      = Session.allowed_status_codes Request.__init__ ->
      Request.not_allowed (self fresh_state)
        (status_codes_of
           (Get "https://api.example/x" None [] true [] [PyInt 201]))
        (sample_response 200) = false).
Proof.
  apply (status_200_accepted (constant_transport 200) sample_policy
           (Get "https://api.example/x" None [] true [] [PyInt 201])
           fresh_state (sample_response 200)); reflexivity.
Defined.

(** C5, counterexample.  A GET with [status_codes=(201,)] answered with
    status 200: the status is not 429, is not in the effective allow-list,
    and no wildcard is supplied, so the condition of the disallowed branch
    holds and the branch is entered with status 200. *)
Lemma disallowed_branch_reached_with_200 :
  constant_transport 200 (history fresh_state)
    (sent (self fresh_state)
       (Get "https://api.example/x" None [] true [] [PyInt 201]))
  = Ok (sample_response 200) /\
  requests.status_code (sample_response 200) = 200 /\
  (requests.status_code (sample_response 200) =? 429) = false /\
  Request.not_allowed (self fresh_state)
    (status_codes_of (Get "https://api.example/x" None [] true [] [PyInt 201]))
    (sample_response 200) = true.
Proof.
  repeat split.
Qed.

(** C6.  When the caller's [status_codes] contains ["*"], a verb call
    returns the transport's answer wrapped in a [Response] whatever its
    status, except 429; answers with status 429 make the call raise
    [RateLimitedError]. *)
Theorem wildcard_accepts_every_status transport policy c st :
  py_in (PyStr "*") (status_codes_of c) = true ->
  (forall r,
     transport (history st) (sent (self st) c) = Ok r ->
     requests.status_code r <> 429 ->
     exists st',
       invoke transport policy c st = (Ok (Response.__init__ r), st'))
  /\ (always_responds transport (sent (self st) c)
        (fun r => requests.status_code r = 429) ->
      exists e,
        fst (invoke transport policy c st) = Raise e /\
        exc_class e = ClsRateLimitedError).
Proof.
  intros Hstar. split.
  - intros r Hr H429.
    apply invoke_first_ok; [exact Hr|].
    unfold verdict, Request.not_allowed.
    apply Z.eqb_neq in H429. rewrite H429, Hstar.
    rewrite andb_false_r. reflexivity.
  - intros Hall.
    destruct (invoke_always transport policy c st _ Hall)
      as [r [h [Hr [H429 Hres]]]].
    eexists. rewrite Hres. unfold verdict. rewrite H429. simpl.
    split; reflexivity.
Qed.

Lemma wildcard_accepts_every_status_witness :
  (exists st',
     invoke (constant_transport 503) sample_policy
       (Head "https://api.example/x" None [] false [] [PyStr "*"])
       fresh_state
     = (Ok (Response.__init__ (sample_response 503)), st'))
  /\ (exists e,
        fst (invoke (constant_transport 429) sample_policy
               (Head "https://api.example/x" None [] false [] [PyStr "*"])
               fresh_state) = Raise e /\
        exc_class e = ClsRateLimitedError).
Proof.
  split.
  - apply (proj1 (wildcard_accepts_every_status (constant_transport 503)
                    sample_policy
                    (Head "https://api.example/x" None [] false []
                       [PyStr "*"]) fresh_state eq_refl)
             (sample_response 503)).
    + reflexivity.
    + simpl. discriminate.
  - apply (proj2 (wildcard_accepts_every_status (constant_transport 429)
                    sample_policy
                    (Head "https://api.example/x" None [] false []
                       [PyStr "*"]) fresh_state eq_refl)).
    intros h. exists (sample_response 429). split; reflexivity.
Defined.



(** ** The response wrapper *)

(** C8.  When parsing the body raises [ValueError], reading
    [Response.json] raises [UnexpectedRequestResult] whose message embeds
    the status code and the reason of the response (and the rendering of
    its attributes); when the body parses, [Response.json] returns the
    parsed value and leaves the state as it was. *)
Theorem json_parsed_or_unexpected_result (resp : Response.t) (st : State) :
  (forall e,
     requests.json (Response.request resp) = Raise e ->
     isinstance_ValueError e = true ->
     fst (Response.json resp st)
     = Raise (MkExc ClsUnexpectedRequestResult
                ("Unexpected request result, received: "
                 ++ str_of_int (Response.status_code resp) ++ " - "
                 ++ Response.reason resp ++ String "010" EmptyString
                 ++ requests.__dict__ (Response.request resp) ++ ".")))
  /\ (forall v,
        requests.json (Response.request resp) = Ok v ->
        Response.json resp st = (Ok v, st)).
Proof.
  split.
  - intros e He Hval. unfold Response.json. rewrite He, Hval. reflexivity.
  - intros v Hv. unfold Response.json. rewrite Hv. reflexivity.
Qed.

Lemma json_parsed_or_unexpected_result_witness :
  fst (Response.json (Response.__init__ (unparseable_response 200))
         fresh_state)
  = Raise (MkExc ClsUnexpectedRequestResult
             ("Unexpected request result, received: 200 - Reason"
              ++ String "010" EmptyString ++ "{status_code: ...}."))
  /\ Response.json (Response.__init__ (sample_response 200)) fresh_state
     = (Ok (JObj [("a", JNum 1)]), fresh_state).
Proof.
  split.
  - apply (proj1 (json_parsed_or_unexpected_result
                    (Response.__init__ (unparseable_response 200))
                    fresh_state)
             (MkExc ClsValueError "Expecting value: line 1 column 1 (char 0)"));
      reflexivity.
  - apply (proj2 (json_parsed_or_unexpected_result
                    (Response.__init__ (sample_response 200)) fresh_state)
             (JObj [("a", JNum 1)])).
    reflexivity.
Defined.

(** ** Frame *)

(** C9.  Neither a verb call nor [_request] changes the session: the
    record of [base_url], [request_headers], [timeout] and
    [allowed_status_codes] in the state after the call equals the one
    before it, whether the call returned or raised. *)
Theorem session_unchanged transport policy st :
  (forall c, self (snd (invoke transport policy c st)) = self st)
  /\ (forall m u d h a r t codes,
        self (snd (Request._request transport m u d h a r t codes st))
        = self st).
Proof.
  split.
  - intros c. rewrite invoke_unfold. apply attempts_frame.
    apply body_frame.
  - intros. apply _request_frame.
Qed.

(** ** The wildcard and the session's allow-list *)

(** C10 (as amended).  In [_request] with an empty [status_codes], a ["*"]
    in the session's [allowed_status_codes] is not honoured: an answer
    whose status is not literally a member of that tuple satisfies the
    condition of the disallowed branch, and the call raises as for any
    disallowed status ([RateLimitedError] for 429, [UnexpectedStatusCode]
    for 404 and outside 400..599, the transport's [HTTPError] otherwise),
    unless the status is 200, which is returned as always. *)
Theorem session_wildcard_ignored transport m u d h a r t st resp :
  py_in (PyStr "*") (Session.allowed_status_codes (self st)) = true ->
  transport (history st) (request_call (self st) m u d h a r t) = Ok resp ->
  py_in (PyInt (requests.status_code resp))
    (Session.allowed_status_codes (self st)) = false ->
  Request.not_allowed (self st) [] resp = true
  /\ (requests.status_code resp = 200 ->
      fst (Request._request transport m u d h a r t [] st) = Ok resp)
  /\ (requests.status_code resp = 429 ->
      fst (Request._request transport m u d h a r t [] st)
      = Raise (MkExc ClsRateLimitedError (rate_limited_message resp)))
  /\ (requests.status_code resp <> 200 ->
      requests.status_code resp <> 429 ->
      requests.status_code resp = 404 \/
      ~ 400 <= requests.status_code resp < 600 ->
      fst (Request._request transport m u d h a r t [] st)
      = Raise (MkExc ClsUnexpectedStatusCode
                 (unexpected_status_message resp)))
  /\ (requests.status_code resp <> 404 ->
      requests.status_code resp <> 429 ->
      400 <= requests.status_code resp < 600 ->
      exists e,
        fst (Request._request transport m u d h a r t [] st) = Raise e /\
        requests.raise_for_status resp = Raise e /\
        exc_class e = ClsHTTPError).
Proof.
  intros Hstar Hr Hin.
  assert (Hna : Request.not_allowed (self st) [] resp = true).
  { apply not_allowed_true; [exact Hin|reflexivity]. }
  split; [exact Hna|].
  rewrite _request_result, Hr. unfold verdict. rewrite Hna.
  split; [|split; [|split]].
  - intros H200. rewrite H200. reflexivity.
  - intros H429. rewrite H429. reflexivity.
  - intros H200 H429 Hcase.
    apply Z.eqb_neq in H200, H429. rewrite H200, H429. simpl.
    destruct (requests.status_code resp =? 404) eqn:E404; [reflexivity|].
    apply Z.eqb_neq in E404.
    destruct Hcase as [H404|Hout]; [contradiction|].
    rewrite (raise_for_status_other resp Hout). reflexivity.
  - intros H404 H429 Hrange.
    assert (H200 : requests.status_code resp <> 200) by lia.
    apply Z.eqb_neq in H200, H404, H429. rewrite H200, H404, H429. simpl.
    destruct (raise_for_status_4xx_5xx resp Hrange) as [e [He Hcls]].
    exists e. rewrite He. auto.
Qed.

Lemma session_wildcard_ignored_witness :
  Request.not_allowed (self wildcard_session_state) [] (sample_response 201)
  = true
  /\ (requests.status_code (sample_response 201) = 200 ->
      fst (Request._request (constant_transport 201) GET
             "https://api.example/x" [] [] [] true [] []
             wildcard_session_state) = Ok (sample_response 201))
  /\ (requests.status_code (sample_response 201) = 429 ->
      fst (Request._request (constant_transport 201) GET
             "https://api.example/x" [] [] [] true [] []
             wildcard_session_state)
      = Raise (MkExc ClsRateLimitedError
                 (rate_limited_message (sample_response 201))))
  /\ (requests.status_code (sample_response 201) <> 200 ->
      requests.status_code (sample_response 201) <> 429 ->
      requests.status_code (sample_response 201) = 404 \/
      ~ 400 <= requests.status_code (sample_response 201) < 600 ->
      fst (Request._request (constant_transport 201) GET
             "https://api.example/x" [] [] [] true [] []
             wildcard_session_state)
      = Raise (MkExc ClsUnexpectedStatusCode
                 (unexpected_status_message (sample_response 201))))
  /\ (requests.status_code (sample_response 201) <> 404 ->
      requests.status_code (sample_response 201) <> 429 ->
      400 <= requests.status_code (sample_response 201) < 600 ->
      exists e,
        fst (Request._request (constant_transport 201) GET
               "https://api.example/x" [] [] [] true [] []
               wildcard_session_state) = Raise e /\
        requests.raise_for_status (sample_response 201) = Raise e /\
        exc_class e = ClsHTTPError).
Proof.
  apply (session_wildcard_ignored (constant_transport 201) GET
           "https://api.example/x" [] [] [] true [] wildcard_session_state
           (sample_response 201)); reflexivity.
Defined.

(** C10, counterexample.  On a session whose allow-list is [("*",)], a
    call without [status_codes] answered 200: 200 is not literally a
    member of the session tuple, yet it is not treated as disallowed;
    [_request] logs it as acceptable and returns it, and [get] wraps
    it. *)
Lemma session_wildcard_200_accepted :
  py_in (PyStr "*") (Session.allowed_status_codes (self star_session_state))
  = true /\
  py_in (PyInt (requests.status_code (sample_response 200)))
    (Session.allowed_status_codes (self star_session_state)) = false /\
  fst (Request._request (constant_transport 200) GET
         "https://api.example/x" [] [] [] true [] [] star_session_state)
  = Ok (sample_response 200) /\
  hd_error
    (log (snd (Request._request (constant_transport 200) GET
                 "https://api.example/x" [] [] [] true [] []
                 star_session_state)))
  = Some (SessionDebug
            "Acceptable GET status code '200' for 'https://api.example/x'.")
  /\
  fst (invoke (constant_transport 200) sample_policy
         (get_default "https://api.example/x") star_session_state)
  = Ok (Response.__init__ (sample_response 200)).
Proof.
  repeat split; vm_compute; reflexivity.
Qed.

(** ** Scenarios *)

(** A GET answered 200 with a JSON body: the wrapper exposes the status
    and the parsed value. *)
Example get_200_json :
  exists resp st',
    invoke (constant_transport 200) sample_policy
      (get_default "https://api.example/x") fresh_state = (Ok resp, st') /\
    Response.status_code resp = 200 /\
    Response.json resp st' = (Ok (JObj [("a", JNum 1)]), st').
Proof.
  do 2 eexists. split; [vm_compute; reflexivity|]. split; reflexivity.
Qed.

(** Two 429 answers, then a 200: the decorator waits twice and the third
    attempt returns the response. *)
Example get_recovers_after_rate_limiting :
  let out :=
    invoke (scripted_transport [429; 429] 200) sample_policy
      (get_default "https://api.example/x") fresh_state in
  fst out = Ok (Response.__init__ (sample_response 200)) /\
  slept (snd out) = 2%nat /\
  List.length (history (snd out)) = 3%nat.
Proof.
  vm_compute. repeat split.
Qed.

(** A POST answered 500 raises the transport's own error. *)
Example post_500_native_error :
  fst (invoke (constant_transport 500) sample_policy
         (Post "https://api.example/x" (Some [("a", "1")]) None [] true [] [])
         fresh_state)
  = Raise (MkExc ClsHTTPError
             "500 Server Error: Reason for url: https://api.example/x").
Proof.
  vm_compute. reflexivity.
Qed.

(** [head] does not follow redirects by default; the other verbs do. *)
Example default_redirect_flags (s : Session.t) (u : string) :
  call_allow_redirects (sent s (head_default u)) = false /\
  call_allow_redirects (sent s (get_default u)) = true /\
  call_allow_redirects (sent s (post_default u)) = true /\
  call_allow_redirects (sent s (patch_default u)) = true.
Proof.
  repeat split.
Qed.

(** Empty arguments fall back on the session's headers and timeout. *)
Example session_defaults_applied (u : string) :
  sent Request.__init__ (get_default u)
  = {| call_method := GET;
       call_url := u;
       call_data := None;
       call_headers := [];
       call_auth := [];
       call_allow_redirects := true;
       call_timeout := [10; 15] |}.
Proof.
  reflexivity.
Qed.

(** ** The state after one attempt *)

Lemma body_state transport c st :
  exists new,
    snd (invoke_body transport c st)
    = MkState (self st) (sent (self st) c :: history st) (new ++ log st)
        (slept st)
    /\ exception_log_calls new
       = match transport (history st) (sent (self st) c) with
         | Raise _ => []
         | Ok r =>
             if requests.status_code r =? 429 then
               [(DEBUG, rate_limited_message r)]
             else if Request.not_allowed (self st) (status_codes_of c) r
                     && negb (requests.status_code r =? 200) then
               if requests.status_code r =? 404 then
                 [(ERROR, unexpected_status_message r)]
               else
                 match requests.raise_for_status r with
                 | Raise _ => []
                 | Ok _ => [(ERROR, unexpected_status_message r)]
                 end
             else []
         end
    /\ logger_debug_calls new
       = match fst (invoke_body transport c st),
               transport (history st) (sent (self st) c) with
         | Ok _, _ => 3%nat
         | Raise _, Ok _ => 2%nat
         | Raise _, Raise _ => 1%nat
         end.
Proof.
  destruct c; simpl;
    unfold Request.get_body, Request.post_body, Request.head_body,
      Request.patch_body, Request._request; run_monad;
    match goal with
    | |- context [transport ?h ?k] => destruct (transport h k) as [resp|e]
    end; simpl;
    try (eexists [_]; repeat split; reflexivity);
    destruct (requests.status_code resp =? 429); simpl;
    try (eexists [_; _; _]; repeat split; reflexivity);
    match goal with
    | |- context [Request.not_allowed ?s ?l ?x] =>
        destruct (Request.not_allowed s l x)
    end; simpl;
    try (eexists [_; _; _]; repeat split; reflexivity);
    destruct (requests.status_code resp =? 200); simpl;
    try (eexists [_; _; _]; repeat split; reflexivity);
    destruct (requests.status_code resp =? 404); simpl;
    try (eexists [_; _; _]; repeat split; reflexivity);
    destruct (requests.raise_for_status resp); simpl;
    try (eexists [_; _; _]; repeat split; reflexivity);
    try (eexists [_; _]; repeat split; reflexivity).
Qed.

Lemma exception_log_calls_app (l1 l2 : list LogRecord) :
  exception_log_calls (l1 ++ l2)%list
  = (exception_log_calls l1 ++ exception_log_calls l2)%list.
Proof.
  unfold exception_log_calls. apply flat_map_app.
Qed.

Lemma logger_debug_calls_app (l1 l2 : list LogRecord) :
  logger_debug_calls (l1 ++ l2)%list
  = (logger_debug_calls l1 + logger_debug_calls l2)%nat.
Proof.
  unfold logger_debug_calls. rewrite filter_app, length_app. reflexivity.
Qed.

Lemma py_eq_refl (x : PyVal) : py_eq x x = true.
Proof.
  destruct x; simpl; [apply Z.eqb_refl|apply String.eqb_refl].
Qed.

Lemma sent_with_status_codes (s : Session.t) (c : VerbCall) (l : list PyVal) :
  sent s (with_status_codes c l) = sent s c.
Proof.
  destruct c; reflexivity.
Qed.

Lemma status_codes_of_with (c : VerbCall) (l : list PyVal) :
  status_codes_of (with_status_codes c l) = l.
Proof.
  destruct c; reflexivity.
Qed.

(** ** What reaches the transport *)

(** X1.  One attempt of a verb makes exactly one transport call, with the
    verb's method and the caller's url, auth and redirect flag unchanged;
    it never waits, and it only adds records to the log. *)
Theorem attempt_makes_one_call transport c st :
  exists k new,
    history (snd (invoke_body transport c st)) = k :: history st /\
    call_method k = method_of c /\
    call_url k = url_of c /\
    call_auth k = auth_of c /\
    call_allow_redirects k = allow_redirects_of c /\
    slept (snd (invoke_body transport c st)) = slept st /\
    log (snd (invoke_body transport c st)) = (new ++ log st)%list.
Proof.
  destruct (body_state transport c st) as [new [Hst _]].
  exists (sent (self st) c), new. rewrite Hst. simpl.
  destruct c; repeat split.
Qed.

(** X2.  The body an attempt sends: [get] and [head] never send one;
    [post] and [patch] send the caller's [data] when it is a non-empty
    dict, and none ([None]) when it is omitted or empty. *)
Theorem attempt_body_sent transport c st :
  exists k,
    history (snd (invoke_body transport c st)) = k :: history st /\
    (method_of c = GET \/ method_of c = HEAD -> call_data k = None) /\
    call_data k
    = match data_of c with
      | Some (x :: d) => Some (x :: d)
      | Some [] | None => None
      end.
Proof.
  destruct (body_state transport c st) as [new [Hst _]].
  exists (sent (self st) c). rewrite Hst. simpl.
  split; [reflexivity|]. split.
  - intros [Hm|Hm]; destruct c; try discriminate Hm; reflexivity.
  - destruct c as [u h a r t s|u d h a r t s|u h a r t s|u d h a r t s];
      simpl; try reflexivity; destruct d as [[|x d]|]; reflexivity.
Qed.

(** X3.  The headers and the timeout an attempt sends are the caller's
    when non-empty, and otherwise the session's [request_headers] and
    [timeout]; the caller's headers replace the session's, they are not
    merged with them. *)
Theorem attempt_defaults_sent transport c st :
  exists k,
    history (snd (invoke_body transport c st)) = k :: history st /\
    call_headers k
    = match headers_of c with
      | Some (x :: h) => x :: h
      | Some [] | None => Session.request_headers (self st)
      end /\
    call_timeout k
    = match timeout_of c with
      | x :: t => x :: t
      | [] => Session.timeout (self st)
      end.
Proof.
  destruct (body_state transport c st) as [new [Hst _]].
  exists (sent (self st) c). rewrite Hst. simpl.
  split; [reflexivity|].
  destruct c as [u h a r t s|u d h a r t s|u h a r t s|u d h a r t s];
    simpl; (split; [destruct h as [[|x h]|]; reflexivity
                   |destruct t; reflexivity]).
Qed.

(** ** Errors and the log *)

(** X4.  When the transport itself raises (no connection, a timeout), the
    attempt raises that very exception; by then it has called
    [self.logger.debug] once, with the invocation message, and it has
    built no logging exception: [LogException.__init__] made no call of
    its [log]. *)
Theorem transport_failure_propagates transport c st e :
  transport (history st) (sent (self st) c) = Raise e ->
  fst (invoke_body transport c st) = Raise e /\
  exception_log_calls (log (snd (invoke_body transport c st)))
  = exception_log_calls (log st) /\
  logger_debug_calls (log (snd (invoke_body transport c st)))
  = S (logger_debug_calls (log st)).
Proof.
  intros Ht.
  pose proof (body_result transport c st) as Hres. rewrite Ht in Hres.
  destruct (body_state transport c st) as [new [Hst [Hroot Hsess]]].
  rewrite Ht in Hroot. rewrite Hres, Ht in Hsess.
  rewrite Hst. simpl.
  rewrite exception_log_calls_app, logger_debug_calls_app, Hroot, Hsess.
  repeat split; assumption.
Qed.

Lemma transport_failure_propagates_witness :
  fst (invoke_body failing_transport (get_default "https://api.example/x")
         fresh_state)
  = Raise (MkExc (ClsOther "ConnectionError") "Connection refused") /\
  exception_log_calls
    (log (snd (invoke_body failing_transport
                 (get_default "https://api.example/x") fresh_state)))
  = exception_log_calls (log fresh_state) /\
  logger_debug_calls
    (log (snd (invoke_body failing_transport
                 (get_default "https://api.example/x") fresh_state)))
  = S (logger_debug_calls (log fresh_state)).
Proof.
  apply (transport_failure_propagates failing_transport
           (get_default "https://api.example/x") fresh_state).
  reflexivity.
Defined.

(** X5.  After an answer of the transport, an attempt can only raise one
    of three exceptions: [RateLimitedError], exactly for status 429;
    [UnexpectedStatusCode], only for a status that is 404 or lies outside
    400..599 (and is neither 200 nor 429); the transport's [HTTPError],
    only for a 4xx or 5xx status other than 404 and 429. *)
Theorem attempt_error_classes transport c st r e :
  transport (history st) (sent (self st) c) = Ok r ->
  fst (invoke_body transport c st) = Raise e ->
  (exc_class e = ClsRateLimitedError /\ requests.status_code r = 429)
  \/ (exc_class e = ClsUnexpectedStatusCode /\
      requests.status_code r <> 429 /\
      requests.status_code r <> 200 /\
      (requests.status_code r = 404 \/
       ~ 400 <= requests.status_code r < 600))
  \/ (exc_class e = ClsHTTPError /\
      400 <= requests.status_code r < 600 /\
      requests.status_code r <> 404 /\
      requests.status_code r <> 429).
Proof.
  intros Ht Hres. rewrite body_result, Ht in Hres. unfold verdict in Hres.
  destruct (requests.status_code r =? 429) eqn:E429.
  { left. apply Z.eqb_eq in E429. injection Hres as <-. auto. }
  apply Z.eqb_neq in E429.
  destruct (Request.not_allowed (self st) (status_codes_of c) r);
    simpl in Hres; [|discriminate Hres].
  destruct (requests.status_code r =? 200) eqn:E200;
    simpl in Hres; [discriminate Hres|].
  apply Z.eqb_neq in E200.
  destruct (requests.status_code r =? 404) eqn:E404.
  { right; left. apply Z.eqb_eq in E404. injection Hres as <-. auto. }
  apply Z.eqb_neq in E404.
  destruct (Z_le_dec 400 (requests.status_code r)) as [Hlo|Hlo];
    [destruct (Z_lt_dec (requests.status_code r) 600) as [Hhi|Hhi]|].
  - right; right.
    destruct (raise_for_status_4xx_5xx r (conj Hlo Hhi)) as [e' [He' Hcls]].
    rewrite He' in Hres. injection Hres as <-. auto.
  - right; left.
    rewrite raise_for_status_other in Hres by lia.
    injection Hres as <-. simpl. repeat split; auto. right. lia.
  - right; left.
    rewrite raise_for_status_other in Hres by lia.
    injection Hres as <-. simpl. repeat split; auto. right. lia.
Qed.

Lemma attempt_error_classes_witness :
  (exc_class (MkExc ClsHTTPError
                "503 Server Error: Reason for url: https://api.example/x")
   = ClsRateLimitedError /\ requests.status_code (sample_response 503) = 429)
  \/ (exc_class (MkExc ClsHTTPError
                   "503 Server Error: Reason for url: https://api.example/x")
      = ClsUnexpectedStatusCode /\
      requests.status_code (sample_response 503) <> 429 /\
      requests.status_code (sample_response 503) <> 200 /\
      (requests.status_code (sample_response 503) = 404 \/
       ~ 400 <= requests.status_code (sample_response 503) < 600))
  \/ (exc_class (MkExc ClsHTTPError
                   "503 Server Error: Reason for url: https://api.example/x")
      = ClsHTTPError /\
      400 <= requests.status_code (sample_response 503) < 600 /\
      requests.status_code (sample_response 503) <> 404 /\
      requests.status_code (sample_response 503) <> 429).
Proof.
  apply (attempt_error_classes (constant_transport 503)
           (patch_default "https://api.example/x") fresh_state
           (sample_response 503)).
  - reflexivity.
  - vm_compute. reflexivity.
Defined.

(** X6.  A typed error raised after an answer of the transport was built
    by [LogException.__init__], which called its [log] with the message
    the exception carries: [logging.getLogger().debug] for
    [RateLimitedError], [logging.getLogger().error] for
    [UnexpectedStatusCode].  It is the only such call of the attempt. *)
Theorem typed_error_logged_before_raise transport c st r e :
  transport (history st) (sent (self st) c) = Ok r ->
  fst (invoke_body transport c st) = Raise e ->
  exc_class e <> ClsHTTPError ->
  (exc_class e = ClsRateLimitedError /\
   exception_log_calls (log (snd (invoke_body transport c st)))
   = (DEBUG, exc_message e) :: exception_log_calls (log st))
  \/ (exc_class e = ClsUnexpectedStatusCode /\
      exception_log_calls (log (snd (invoke_body transport c st)))
      = (ERROR, exc_message e) :: exception_log_calls (log st)).
Proof.
  intros Ht Hres Hcls.
  destruct (body_state transport c st) as [new [Hst [Hroot _]]].
  rewrite Hst. simpl. rewrite exception_log_calls_app, Hroot, Ht.
  clear Hst Hroot.
  rewrite body_result, Ht in Hres. unfold verdict in Hres.
  destruct (requests.status_code r =? 429).
  { left. injection Hres as <-. auto. }
  destruct (Request.not_allowed (self st) (status_codes_of c) r
            && negb (requests.status_code r =? 200));
    [|discriminate Hres].
  destruct (requests.status_code r =? 404).
  { right. injection Hres as <-. auto. }
  destruct (requests.raise_for_status r) as [[]|e'] eqn:Hrfs.
  - right. injection Hres as <-. auto.
  - exfalso. injection Hres as <-. apply Hcls.
    unfold requests.raise_for_status in Hrfs.
    destruct ((400 <=? requests.status_code r)
              && (requests.status_code r <? 500));
      [injection Hrfs as <-; reflexivity|].
    destruct ((500 <=? requests.status_code r)
              && (requests.status_code r <? 600));
      [injection Hrfs as <-; reflexivity|discriminate Hrfs].
Qed.

Lemma typed_error_logged_before_raise_witness :
  (exc_class (MkExc ClsRateLimitedError
                (rate_limited_message (sample_response 429)))
   = ClsRateLimitedError /\
   exception_log_calls
     (log (snd (invoke_body (constant_transport 429)
                  (get_default "https://api.example/x") fresh_state)))
   = (DEBUG,
      exc_message (MkExc ClsRateLimitedError
                     (rate_limited_message (sample_response 429))))
     :: exception_log_calls (log fresh_state))
  \/ (exc_class (MkExc ClsRateLimitedError
                   (rate_limited_message (sample_response 429)))
      = ClsUnexpectedStatusCode /\
      exception_log_calls
        (log (snd (invoke_body (constant_transport 429)
                     (get_default "https://api.example/x") fresh_state)))
      = (ERROR,
         exc_message (MkExc ClsRateLimitedError
                        (rate_limited_message (sample_response 429))))
        :: exception_log_calls (log fresh_state)).
Proof.
  apply (typed_error_logged_before_raise (constant_transport 429)
           (get_default "https://api.example/x") fresh_state
           (sample_response 429)).
  - reflexivity.
  - vm_compute. reflexivity.
  - simpl. discriminate.
Defined.

(** X7.  An attempt that returns a [Response] has built no logging
    exception, so [LogException.__init__] made no call of its [log], and
    it has called [self.logger.debug] three times.  An attempt that raises
    the transport's [HTTPError] has made no such [log] call either: the
    native error does not pass through the logging of the typed ones. *)
Theorem no_exception_log_on_return_or_native_error transport c st r :
  transport (history st) (sent (self st) c) = Ok r ->
  (forall resp,
     fst (invoke_body transport c st) = Ok resp ->
     exception_log_calls (log (snd (invoke_body transport c st)))
     = exception_log_calls (log st) /\
     logger_debug_calls (log (snd (invoke_body transport c st)))
     = (3 + logger_debug_calls (log st))%nat)
  /\ (forall e,
        fst (invoke_body transport c st) = Raise e ->
        exc_class e = ClsHTTPError ->
        exception_log_calls (log (snd (invoke_body transport c st)))
        = exception_log_calls (log st)).
Proof.
  intros Ht.
  destruct (body_state transport c st) as [new [Hst [Hroot Hsess]]].
  rewrite Hst. simpl.
  rewrite exception_log_calls_app, logger_debug_calls_app, Hroot, Ht.
  clear Hst Hroot.
  rewrite body_result, Ht. unfold verdict. split.
  - intros resp Hres.
    rewrite body_result, Ht in Hsess. unfold verdict in Hsess.
    destruct (requests.status_code r =? 429); [discriminate Hres|].
    destruct (Request.not_allowed (self st) (status_codes_of c) r
              && negb (requests.status_code r =? 200)).
    + destruct (requests.status_code r =? 404); [discriminate Hres|].
      destruct (requests.raise_for_status r); discriminate Hres.
    + rewrite Hsess. split; reflexivity.
  - intros e Hres Hcls.
    destruct (requests.status_code r =? 429).
    { injection Hres as <-. discriminate Hcls. }
    destruct (Request.not_allowed (self st) (status_codes_of c) r
              && negb (requests.status_code r =? 200)); [|reflexivity].
    destruct (requests.status_code r =? 404).
    { injection Hres as <-. discriminate Hcls. }
    destruct (requests.raise_for_status r) as [[]|e']; [|reflexivity].
    injection Hres as <-. discriminate Hcls.
Qed.

Lemma no_exception_log_on_return_or_native_error_witness :
  (forall resp,
     fst (invoke_body (constant_transport 500)
            (get_default "https://api.example/x") fresh_state) = Ok resp ->
     exception_log_calls
       (log (snd (invoke_body (constant_transport 500)
                    (get_default "https://api.example/x") fresh_state)))
     = exception_log_calls (log fresh_state) /\
     logger_debug_calls
       (log (snd (invoke_body (constant_transport 500)
                    (get_default "https://api.example/x") fresh_state)))
     = (3 + logger_debug_calls (log fresh_state))%nat)
  /\ (forall e,
        fst (invoke_body (constant_transport 500)
               (get_default "https://api.example/x") fresh_state) = Raise e ->
        exc_class e = ClsHTTPError ->
        exception_log_calls
          (log (snd (invoke_body (constant_transport 500)
                       (get_default "https://api.example/x") fresh_state)))
        = exception_log_calls (log fresh_state)).
Proof.
  apply (no_exception_log_on_return_or_native_error (constant_transport 500)
           (get_default "https://api.example/x") fresh_state
           (sample_response 500)).
  reflexivity.
Defined.

(** ** The allow-lists *)

(** X8.  A non-empty [status_codes] argument replaces the session's
    allow-list: whatever [allowed_status_codes] holds, the outcome of the
    attempt is the same. *)
Theorem caller_allow_list_replaces_session transport c st l :
  status_codes_of c <> [] ->
  fst (invoke_body transport c (set_allowed_status_codes l st))
  = fst (invoke_body transport c st).
Proof.
  intros Hne. rewrite !body_result.
  assert (Hsent : sent (self (set_allowed_status_codes l st)) c
                  = sent (self st) c) by (destruct c; reflexivity).
  rewrite Hsent. simpl history.
  destruct (transport (history st) (sent (self st) c)) as [r|e];
    [|reflexivity].
  unfold verdict, Request.not_allowed.
  destruct (status_codes_of c) as [|x s]; [contradiction Hne; reflexivity|].
  reflexivity.
Qed.

Lemma caller_allow_list_replaces_session_witness :
  fst (invoke_body (constant_transport 201)
         (Get "https://api.example/x" None [] true [] [PyInt 404])
         (set_allowed_status_codes [PyInt 200; PyInt 201] fresh_state))
  = fst (invoke_body (constant_transport 201)
           (Get "https://api.example/x" None [] true [] [PyInt 404])
           fresh_state).
Proof.
  apply (caller_allow_list_replaces_session (constant_transport 201)
           (Get "https://api.example/x" None [] true [] [PyInt 404])
           fresh_state [PyInt 200; PyInt 201]).
  simpl. discriminate.
Defined.

(** X9.  Extending a non-empty [status_codes] never rejects more: an
    answer an attempt returns under [status_codes] is also returned under
    any list that has all its members. *)
Theorem extending_status_codes_keeps_accepting transport c st l resp :
  status_codes_of c <> [] ->
  (forall x, py_in x (status_codes_of c) = true -> py_in x l = true) ->
  fst (invoke_body transport c st) = Ok resp ->
  fst (invoke_body transport (with_status_codes c l) st) = Ok resp.
Proof.
  intros Hne Hincl Hres.
  rewrite body_result in Hres.
  rewrite body_result, sent_with_status_codes, status_codes_of_with.
  destruct (transport (history st) (sent (self st) c)) as [r|e];
    [|discriminate Hres].
  unfold verdict in *.
  destruct (requests.status_code r =? 429); [discriminate Hres|].
  destruct (requests.status_code r =? 200) eqn:E200.
  { rewrite !andb_false_r in *. exact Hres. }
  rewrite !andb_true_r in *.
  destruct (Request.not_allowed (self st) (status_codes_of c) r) eqn:Hna.
  { destruct (requests.status_code r =? 404); [discriminate Hres|].
    destruct (requests.raise_for_status r); discriminate Hres. }
  assert (Hl : Request.not_allowed (self st) l r = false).
  { unfold Request.not_allowed in *.
    destruct (status_codes_of c) as [|x s] eqn:Hcodes;
      [contradiction Hne; reflexivity|].
    assert (Hx : py_in x l = true).
    { apply Hincl. simpl. rewrite py_eq_refl. reflexivity. }
    destruct l as [|y l']; [discriminate Hx|].
    unfold py_or in *.
    apply andb_false_iff in Hna. apply andb_false_iff.
    destruct Hna as [Hin|Hstar].
    - left. apply negb_false_iff in Hin. apply negb_false_iff.
      apply Hincl. exact Hin.
    - right. apply negb_false_iff in Hstar. apply negb_false_iff.
      apply Hincl. exact Hstar. }
  rewrite Hl. exact Hres.
Qed.

Lemma extending_status_codes_keeps_accepting_witness :
  fst (invoke_body (constant_transport 201)
         (with_status_codes
            (Get "https://api.example/x" None [] true [] [PyInt 201])
            [PyInt 404; PyInt 201]) fresh_state)
  = Ok (Response.__init__ (sample_response 201)).
Proof.
  apply (extending_status_codes_keeps_accepting (constant_transport 201)
           (Get "https://api.example/x" None [] true [] [PyInt 201])
           fresh_state [PyInt 404; PyInt 201]).
  - simpl. discriminate.
  - intros x Hx. simpl in Hx. simpl.
    destruct (py_eq x (PyInt 201)); [apply orb_true_r|discriminate Hx].
  - vm_compute. reflexivity.
Defined.

(** Passing [status_codes] to a call drops what the session allowed: a
    201 the session accepts is rejected once the caller lists only 404. *)
Example status_codes_drop_session_codes :
  fst (invoke_body (constant_transport 201)
         (get_default "https://api.example/x")
         (set_allowed_status_codes [PyInt 200; PyInt 201] fresh_state))
  = Ok (Response.__init__ (sample_response 201)) /\
  fst (invoke_body (constant_transport 201)
         (with_status_codes (get_default "https://api.example/x")
            [PyInt 404])
         (set_allowed_status_codes [PyInt 200; PyInt 201] fresh_state))
  = Raise (MkExc ClsUnexpectedStatusCode
             (unexpected_status_message (sample_response 201))).
Proof.
  split; vm_compute; reflexivity.
Qed.

(** X10.  [base_url] is never read: assigning it changes neither the
    outcome of an attempt, nor the call that reaches the transport, nor
    what is logged. *)
Theorem base_url_unused transport c st b :
  invoke_body transport c (set_base_url b st)
  = (fst (invoke_body transport c st),
     set_base_url b (snd (invoke_body transport c st))).
Proof.
  destruct c; simpl;
    unfold Request.get_body, Request.post_body, Request.head_body,
      Request.patch_body, Request._request, set_base_url; run_monad;
    match goal with
    | |- context [transport ?h ?k] => destruct (transport h k) as [resp|e]
    end; simpl; try reflexivity;
    destruct (requests.status_code resp =? 429); simpl; try reflexivity;
    unfold Request.not_allowed; simpl;
    match goal with
    | |- context [negb (py_in ?a ?l) && ?y] =>
        destruct (negb (py_in a l) && y)
    end; simpl; try reflexivity;
    destruct (requests.status_code resp =? 200); simpl; try reflexivity;
    destruct (requests.status_code resp =? 404); simpl; try reflexivity;
    destruct (requests.raise_for_status resp); reflexivity.
Qed.

(** ** The wrapper a call returns *)



(** X12.  Reading [Response.json] when the parse raises: a [ValueError]
    is reported once on the root logger, at error level and with the
    message of the [UnexpectedRequestResult] raised, and nothing else
    changes; any other exception of the parse passes through as it is,
    unlogged. *)
Theorem json_failure_effects (resp : Response.t) (st : State) (e : exception) :
  requests.json (Response.request resp) = Raise e ->
  (isinstance_ValueError e = true ->
   exists m,
     Response.json resp st
     = (Raise (MkExc ClsUnexpectedRequestResult m),
        MkState (self st) (history st) (RootLog ERROR m :: log st)
          (slept st)))
  /\ (isinstance_ValueError e = false ->
      Response.json resp st = (Raise e, st)).
Proof.
  intros He. unfold Response.json. rewrite He. split; intros Hval.
  - rewrite Hval. eexists. reflexivity.
  - rewrite Hval. reflexivity.
Qed.

Lemma json_failure_effects_witness :
  (isinstance_ValueError
     (MkExc ClsValueError "Expecting value: line 1 column 1 (char 0)") = true ->
   exists m,
     Response.json (Response.__init__ (unparseable_response 200)) fresh_state
     = (Raise (MkExc ClsUnexpectedRequestResult m),
        MkState (self fresh_state) (history fresh_state)
          (RootLog ERROR m :: log fresh_state) (slept fresh_state)))
  /\ (isinstance_ValueError
        (MkExc ClsValueError "Expecting value: line 1 column 1 (char 0)")
      = false ->
      Response.json (Response.__init__ (unparseable_response 200)) fresh_state
      = (Raise (MkExc ClsValueError
                  "Expecting value: line 1 column 1 (char 0)"), fresh_state)).
Proof.
  apply (json_failure_effects (Response.__init__ (unparseable_response 200))
           fresh_state
           (MkExc ClsValueError "Expecting value: line 1 column 1 (char 0)")).
  reflexivity.
Defined.
